(** * Kalamar items, property stores and the site registry

    A shallow embedding of [kalamar/item.py] (classes [BaseItem],
    [AtomItem] and [ItemProperties]) and of the site registry exercised by
    [kalamar/tests/test_site.py], together with the properties that the
    design document states about them.

    Python objects are mutable; here every method takes the object's
    state and returns the new state next to its result.  A method that can
    raise returns a [result]. *)

From stdpp Require Import gmap strings list fin_maps.

Local Open Scope string_scope.

(** ** Python values and exceptions *)

(** The values that properties take: [None] (the absent marker), booleans
    and strings.  On these, Python's [==] is structural equality. *)
Inductive pyval : Type :=
  | PyNone
  | PyBool (b : bool)
  | PyStr (s : string).

#[global] Instance pyval_eq_dec : EqDecision pyval.
Proof. solve_decision. Defined.

(** The exceptions that the modelled code raises or catches. *)
Inductive exn : Type :=
  | KeyError (key : string)
  | NameError (name : string)
  | OperatorNotAvailable (operator : string).

#[global] Instance exn_eq_dec : EqDecision exn.
Proof. solve_decision. Defined.

Inductive result (A : Type) : Type :=
  | Return (a : A)
  | Raise (e : exn).
Arguments Return {A} a.
Arguments Raise {A} e.

(** [d[k]] on a builtin dict. *)
Definition dict_getitem (d : gmap string pyval) (k : string) : result pyval :=
  match d !! k with
  | Some v => Return v
  | None => Raise (KeyError k)
  end.

(** [d.get(k, default)] on a builtin dict. *)
Definition dict_get {V} (d : gmap string V) (k : string) (dflt : V) : V :=
  match d !! k with
  | Some v => v
  | None => dflt
  end.

(** ** The item interface

    [BaseItem] is abstract: a concrete item class overloads
    [_read_property_from_data] and may overload [_convert_value_type].
    [D] is the state of the item's data (the stream behind [_opener]),
    which a raw read may consume or change.  Following its docstring the
    raw read returns a value, [None] when the property does not exist. *)
Class ItemClass (D : Type) : Type := {
  _read_property_from_data : D → string → pyval * D;
  _convert_value_type : string → pyval → pyval;
}.

(** [BaseItem._convert_value_type]: "Do nothing by default". *)
Definition BaseItem_convert_value_type (prop_name : string) (value : pyval)
  : pyval := value.

(** ** State of an item and of its property store *)

(** [ItemProperties] is a dict (its own entries are the cache of values
    already read) that carries a second dict, [forced_values]. *)
Record ItemProperties : Type := mkProps {
  forced_values : gmap string pyval;
  cache : gmap string pyval;
}.

(** An item: its alias table, its property store and its data.
    [raw_reads] is a log that records, in order, the argument of every call
    of [_read_property_from_data]; the code does not keep it, it is there
    to count the calls. *)
Record Item (D : Type) : Type := mkItem {
  _properties_aliases : gmap string string;
  properties : ItemProperties;
  data : D;
  raw_reads : list string;
}.
Arguments mkItem {D}.
Arguments _properties_aliases {D}.
Arguments properties {D}.
Arguments data {D}.
Arguments raw_reads {D}.

(** [ItemProperties.__init__(item, forced_values)] inside
    [BaseItem.__init__]: the dict itself starts empty. *)
Definition new_item {D} (aliases : gmap string string)
    (accessor_properties : gmap string pyval) (d : D) : Item D :=
  mkItem aliases (mkProps accessor_properties ∅) d [].

Section ItemProperties.
Context {D : Type} `{ItemClass D}.

(** [ItemProperties._alias] *)
Definition _alias (it : Item D) (prop_name : string) : string :=
  dict_get (_properties_aliases it) prop_name prop_name.

(** [dict.__setitem__], which [ItemProperties] inherits unchanged: the
    entry is written under the key as given. *)
Definition __setitem__ (it : Item D) (key : string) (value : pyval)
  : Item D :=
  mkItem (_properties_aliases it)
         (mkProps (forced_values (properties it))
                  (<[key := value]> (cache (properties it))))
         (data it) (raw_reads it).

(** The call [self._item._read_property_from_data(name)]. *)
Definition raw_read (it : Item D) (name : string) : pyval * Item D :=
  let '(v, d') := _read_property_from_data (data it) name in
  (v, mkItem (_properties_aliases it) (properties it) d'
             (raw_reads it ++ [name])%list).

(** [ItemProperties.__getitem__] *)
Definition __getitem__ (it : Item D) (key : string)
  : result pyval * Item D :=
  match dict_getitem (forced_values (properties it)) key with
  | Return res => (Return res, it)
  | Raise (KeyError _) =>
      match dict_getitem (cache (properties it)) (_alias it key) with
      | Return res => (Return res, it)
      | Raise (KeyError _) =>
          let '(v, it1) := raw_read it (_alias it key) in
          let it2 := __setitem__ it1 (_alias it1 key) v in
          (dict_getitem (cache (properties it2)) (_alias it2 key), it2)
      | Raise e => (Raise e, it)
      end
  | Raise e => (Raise e, it)
  end.

End ItemProperties.

(** ** Operations on a store, in sequence *)

(** What a client does to [item.properties]: read [store[key]] or write
    [store[key] = value]. *)
Inductive store_op : Type :=
  | Lookup (key : string)
  | Assign (key : string) (value : pyval).

Definition writes_to (name : string) (op : store_op) : bool :=
  match op with
  | Lookup _ => false
  | Assign key _ => bool_decide (key = name)
  end.

Section StoreRuns.
Context {D : Type} `{ItemClass D}.

Definition step (it : Item D) (op : store_op) : Item D :=
  match op with
  | Lookup key => (__getitem__ it key).2
  | Assign key value => __setitem__ it key value
  end.

Definition run (it : Item D) (ops : list store_op) : Item D :=
  foldl step it ops.

(** The resolution order in the words of the design document: the
    requested name is aliased first, and the aliased name is what the
    forced values, the cache and the raw read are asked for. *)
Definition getitem_spec (it : Item D) (key : string)
  : result pyval * Item D :=
  let name := _alias it key in
  match forced_values (properties it) !! name with
  | Some v => (Return v, it)
  | None =>
      match cache (properties it) !! name with
      | Some v => (Return v, it)
      | None =>
          let '(v, it1) := raw_read it name in
          (Return v, __setitem__ it1 name v)
      end
  end.

End StoreRuns.

(** ** [BaseItem.matches] *)

(** The names bound at module level in [item.py]: the import and the four
    classes.  A bare name in a method body is looked up here (and then in
    the builtins, which hold neither of the two names looked up below). *)
Definition module_globals : list string :=
  ["kalamar"; "BaseItem"; "AtomItem"; "CapsuleItem"; "ItemProperties"].

Definition global_bound (name : string) : bool :=
  bool_decide (name ∈ module_globals).

Section BaseItem.
Context {D : Type} `{ItemClass D}.

(** [kalamar.operators]: the table is defined outside [item.py]; an
    operator is a binary function that may raise. *)
Variable operators : gmap string (pyval → pyval → result pyval).

(** The [try] block of [matches] and the end of the function.  The value
    of the operator call is not returned: the function falls off its
    end and yields [None].  A [KeyError], from the table or from the
    operator, reaches the handler, which evaluates the bare name
    [OperatorNotAvailable]. *)
Definition matches_dispatch (operator : string) (prop_val value : pyval)
  : result pyval :=
  let attempt :=
    match operators !! operator with
    | Some op =>
        match op prop_val value with
        | Return _ => Return PyNone
        | Raise e => Raise e
        end
    | None => Raise (KeyError operator)
    end in
  match attempt with
  | Raise (KeyError _) =>
      if global_bound "OperatorNotAvailable"
      then Raise (OperatorNotAvailable operator)
      else Raise (NameError "OperatorNotAvailable")
  | r => r
  end.

(** [BaseItem.matches].  The conversion is written
    [_convert_value_type(prop_name, value)], a bare name and not
    [self._convert_value_type]: it is resolved at module level, where it
    is not bound.  In the branch of a bound name the hook of the item
    class stands for the callee. *)
Definition matches (it : Item D) (prop_name operator : string)
    (value : pyval) : result pyval * Item D :=
  match __getitem__ it prop_name with
  | (Raise e, it1) => (Raise e, it1)
  | (Return prop_val, it1) =>
      if global_bound "_convert_value_type"
      then (matches_dispatch operator prop_val
              (_convert_value_type prop_name value), it1)
      else (Raise (NameError "_convert_value_type"), it1)
  end.

(** [matches] in the words of its docstring and of the design document:
    the property value and the converted value go to the operator found
    by its symbol, whose boolean is returned; a symbol that is not in the
    table fails with operator-not-available. *)
Definition matches_documented (it : Item D) (prop_name operator : string)
    (value : pyval) : result pyval * Item D :=
  match __getitem__ it prop_name with
  | (Raise e, it1) => (Raise e, it1)
  | (Return prop_val, it1) =>
      match operators !! operator with
      | Some op => (op prop_val (_convert_value_type prop_name value), it1)
      | None => (Raise (OperatorNotAvailable operator), it1)
      end
  end.

End BaseItem.

(** Modelled from the spec: [kalamar.operators] is not among the sources.
    These are its two equality operators, [=] and [!=], on values whose
    [==] is structural. *)
Definition equality_operators : gmap string (pyval → pyval → result pyval) :=
  {[ "=" := λ a b, Return (PyBool (bool_decide (a = b)));
     "!=" := λ a b, Return (PyBool (negb (bool_decide (a = b)))) ]}.

(** ** [AtomItem] *)

Module AtomItem.
Section AtomItem.
Context {D : Type} `{ItemClass D}.

(** "Alias for properties["_content"]" *)
Definition read (it : Item D) : result pyval * Item D :=
  __getitem__ it "_content".

(** "Alias for properties["_content"] = value" *)
Definition write (it : Item D) (value : pyval) : Item D :=
  __setitem__ it "_content" value.

End AtomItem.
End AtomItem.

(** ** The site registry *)

Module Site.

(** An access point instance, known by its identity as an object: two
    calls of [DummyAccessPoint()] give two different instances. *)
Definition access_point : Type := nat.

(** [site.access_points]: the bindings from names to access points. *)
Record Site : Type := mkSite {
  access_points : gmap string access_point;
}.

(** [Site()] *)
Definition new_site : Site := mkSite ∅.

(** The two conditions that make a registration fail. *)
Inductive condition : Type :=
  | DuplicateName
  | DuplicateAccessPoint.

#[global] Instance condition_eq_dec : EqDecision condition.
Proof. solve_decision. Defined.

(** What [register] does: it returns, or it raises the [RuntimeError]
    that the tests expect, here with the conditions that were found. *)
Inductive outcome : Type :=
  | Registered
  | RuntimeError (conditions : list condition).

Definition name_registered (site : Site) (name : string) : bool :=
  bool_decide (is_Some (access_points site !! name)).

Definition access_point_registered (site : Site) (ap : access_point)
  : bool :=
  existsb (λ binding : string * access_point, bool_decide (binding.2 = ap))
          (map_to_list (access_points site)).

(** Modelled from the spec: [Site.register] is not among the sources,
    only its tests are.  It "fails with a duplicate name condition if
    name is already registered; fails with a duplicate access point
    condition if accessPoint is already registered under any name
    (including name itself); otherwise inserts the binding".  Each
    condition that holds is reported, so that a binding registered a
    second time as it is fails with both. *)
Definition register (site : Site) (name : string) (ap : access_point)
  : outcome * Site :=
  let conditions :=
    ((if name_registered site name then [DuplicateName] else []) ++
     (if access_point_registered site ap then [DuplicateAccessPoint]
      else []))%list in
  match conditions with
  | [] => (Registered, mkSite (<[name := ap]> (access_points site)))
  | _ => (RuntimeError conditions, site)
  end.

(** [register] fails with the given condition. *)
Definition fails_with (c : condition) (r : outcome * Site) : Prop :=
  match r.1 with
  | Registered => False
  | RuntimeError conditions => c ∈ conditions
  end.

End Site.

(** ** Two concrete item classes *)

(** Modelled from the spec: [_test.corks.CorkItem], the item of the
    doctest of [ItemProperties], is not among the sources.  Its raw read
    knows ["cork_prop"] and ["I am not aliased"] and returns [None] for
    any other name; its data has no state. *)
Definition cork_read (d : unit) (prop_name : string) : pyval * unit :=
  (if String.eqb prop_name "cork_prop" then PyStr "I am a cork prop"
   else if String.eqb prop_name "I am not aliased"
        then PyStr "I am not aliased"
        else PyNone, d).

#[global] Instance CorkItem : ItemClass unit := {|
  _read_property_from_data := cork_read;
  _convert_value_type := BaseItem_convert_value_type;
|}.

Definition cork_aliases : gmap string string :=
  {[ "I am aliased" := "I am not aliased" ]}.

(** An item class whose raw read is not repeatable: the data is a counter
    of the reads made so far, and a read returns whether that count is
    even.  Two raw reads of one name give two different values. *)
Definition ticking_read (reads : nat) (prop_name : string) : pyval * nat :=
  (PyBool (Nat.even reads), S reads).

#[global] Instance TickingItem : ItemClass nat := {|
  _read_property_from_data := ticking_read;
  _convert_value_type := BaseItem_convert_value_type;
|}.

(** ** Concrete items *)

(** The store of the doctest: [ItemProperties(item, {"a": "A", "b": "B"})]
    over a cork item. *)
Definition cork_item : Item unit :=
  new_item cork_aliases {[ "a" := PyStr "A"; "b" := PyStr "B" ]} tt.

(** A cork item with a forced value for a name that its data also knows. *)
Definition forced_cork_item : Item unit :=
  new_item cork_aliases {[ "cork_prop" := PyStr "forced" ]} tt.

(** A cork item with a forced value for the canonical name of its
    alias. *)
Definition shadowed_cork_item : Item unit :=
  new_item cork_aliases {[ "I am not aliased" := PyStr "forced" ]} tt.

(** A fresh item whose raw reads are not repeatable. *)
Definition ticking_item : Item nat := new_item ∅ ∅ 0.

(** What a client does to it after a first lookup of ["p"]. *)
Definition ticking_ops : list store_op :=
  [Lookup "q"; Assign "r" PyNone; Lookup "p"].

(** Atomic items built with a forced content: under the key that
    [AtomItem] reserves, ["_content"], and under the key ["content"]. *)
Definition hello_atom : Item unit :=
  new_item ∅ {[ "_content" := PyStr "hello" ]} tt.

Definition hello_atom_content_key : Item unit :=
  new_item ∅ {[ "content" := PyStr "hello" ]} tt.

(** An atomic item without forced values, over cork data. *)
Definition plain_atom : Item unit := new_item ∅ ∅ tt.

(** The site of the tests after [site.register("things", access_point)],
    the access point being instance 1. *)
Definition things_site : Site.Site :=
  (Site.register Site.new_site "things" 1).2.

(** ** Invariant of the raw-read log *)

(** Every name that was read from the data has its entry in the cache,
    and no name was read twice. *)
Definition reads_are_cached {D} (it : Item D) : Prop :=
  NoDup (raw_reads it) ∧
  ∀ name, name ∈ raw_reads it → is_Some (cache (properties it) !! name).

(** The operations of a run leave the entry of [name] to lookups. *)
Definition no_write_to (name : string) (ops : list store_op) : Prop :=
  forallb (λ op, negb (writes_to name op)) ops = true.

(** ** The keys that a run writes *)

Definition assigned_keys (ops : list store_op) : list string :=
  omap (λ op, match op with
              | Lookup _ => None
              | Assign key _ => Some key
              end) ops.

(** A raw read that leaves the data as it found it: it can be repeated. *)
Definition repeatable_read (D : Type) `{ItemClass D} : Prop :=
  ∀ (d : D) (name : string), (_read_property_from_data d name).2 = d.

(** ** The stream of an item: [BaseItem._open] *)

Section Stream.
Context {F W : Type}.

(** The truth value that Python gives to a stream object ([bool(stream)]). *)
Variable truth : F → bool.

(** [self._opener]: a function of no argument that returns a stream
    object, or [None]; [W] is the state of what it opens. *)
Variable _opener : W → option F * W.

(** The part of an item that [_open] works on.  [opener_calls] counts the
    calls of [_opener]; the code does not keep this count. *)
Record StreamState : Type := mkStream {
  _stream : option F;
  world : W;
  opener_calls : nat;
}.

(** [not(self._stream)] is false for a stream object that is true. *)
Definition truthy (stream : option F) : bool :=
  match stream with
  | None => false
  | Some f => truth f
  end.

(** [self._stream = None] in [BaseItem.__init__]. *)
Definition new_stream (w : W) : StreamState := mkStream None w 0.

(** [BaseItem._open] *)
Definition _open (st : StreamState) : StreamState :=
  if negb (truthy (_stream st))
  then let '(stream, w) := _opener (world st) in
       mkStream stream w (S (opener_calls st))
  else st.

End Stream.
Arguments StreamState : clear implicits.
Arguments mkStream {F W}.
Arguments _stream {F W}.
Arguments world {F W}.
Arguments opener_calls {F W}.

(** A stream object that is a buffer of text, true when it is not empty,
    and two openers over a counter of the streams opened so far. *)
Definition buffer_truth (buffer : string) : bool :=
  negb (String.eqb buffer "").

Definition text_opener (opened : nat) : option string * nat :=
  (Some "some text", S opened).

Definition empty_opener (opened : nat) : option string * nat :=
  (Some "", S opened).

(** ** Lookups over a raw read that can raise *)

(** What a raw read raises besides the exceptions of [exn]:
    [BaseItem._read_property_from_data] is abstract and raises
    [NotImplementedError("Abstract class")]. *)
Inductive raised : Type :=
  | Builtin (e : exn)
  | NotImplementedError (msg : string).

Inductive attempt (A : Type) : Type :=
  | Returns (a : A)
  | Raises (r : raised).
Arguments Returns {A} a.
Arguments Raises {A} r.

Definition attempt_of_result {A} (r : result A) : attempt A :=
  match r with
  | Return a => Returns a
  | Raise e => Raises (Builtin e)
  end.

(** [BaseItem._read_property_from_data], not overloaded. *)
Definition BaseItem_read_property_from_data {D} (d : D) (prop_name : string)
  : attempt pyval * D :=
  (Raises (NotImplementedError "Abstract class"), d).

Section FallibleRead.
Context {D : Type}.

(** [self._item._read_property_from_data] as any method: it returns or
    it raises. *)
Variable read_hook : D → string → attempt pyval * D.

(** [ItemProperties.__getitem__] over such a raw read.  The raw read is
    called inside the handler of the second [KeyError]: what it raises,
    a [KeyError] included, is not caught, and the assignment to
    [self[...]] is not reached. *)
Definition getitem_fallible (it : Item D) (key : string)
  : attempt pyval * Item D :=
  match dict_getitem (forced_values (properties it)) key with
  | Return res => (Returns res, it)
  | Raise (KeyError _) =>
      match dict_getitem (cache (properties it)) (_alias it key) with
      | Return res => (Returns res, it)
      | Raise (KeyError _) =>
          let '(r, d') := read_hook (data it) (_alias it key) in
          let it1 := mkItem (_properties_aliases it) (properties it) d'
                            (raw_reads it ++ [_alias it key])%list in
          match r with
          | Raises e => (Raises e, it1)
          | Returns v =>
              let it2 := __setitem__ it1 (_alias it1 key) v in
              (attempt_of_result
                 (dict_getitem (cache (properties it2)) (_alias it2 key)),
               it2)
          end
      | Raise e => (Raises (Builtin e), it)
      end
  | Raise e => (Raises (Builtin e), it)
  end.

End FallibleRead.

(** The raw read of an item class, seen as a raw read that can raise. *)
Definition total_read_hook {D} `{ItemClass D} (d : D) (name : string)
  : attempt pyval * D :=
  (Returns (_read_property_from_data d name).1,
   (_read_property_from_data d name).2).

(** An item with an empty alias table and a forced value, for the raw
    reads that raise.  Its class binds [_properties_aliases], which
    [BaseItem] does not: without the table a lookup of a key that is not
    forced fails in [_alias], before any raw read. *)
Definition unaliased_item : Item unit :=
  new_item ∅ {[ "a" := PyStr "A" ]} tt.

(** An operator table in which the operator ["in"] fails with a
    [KeyError] of its own. *)
Definition faulty_operators : gmap string (pyval → pyval → result pyval) :=
  {[ "=" := λ a b, Return (PyBool (bool_decide (a = b)));
     "in" := λ a b, Raise (KeyError "b") ]}.

(** A cork item whose alias table chains two aliases: ["short"] stands
    for ["I am aliased"], which stands for ["I am not aliased"]. *)
Definition chained_cork_item : Item unit :=
  new_item {[ "short" := "I am aliased";
              "I am aliased" := "I am not aliased" ]} ∅ tt.

(** * Properties of the property store *)

Section StoreFacts.
Context {D : Type} `{ItemClass D}.
Implicit Types (it : Item D) (key name : string) (v : pyval).

Lemma alias_setitem it key v name :
  _alias (__setitem__ it key v) name = _alias it name.
Proof. reflexivity. Qed.

Lemma alias_raw_read it key name :
  _alias (raw_read it key).2 name = _alias it name.
Proof.
  unfold raw_read. by destruct (_read_property_from_data _ _).
Qed.

(** The three ways a lookup ends. *)
Lemma getitem_forced it key v :
  forced_values (properties it) !! key = Some v →
  __getitem__ it key = (Return v, it).
Proof. intros Hf. unfold __getitem__, dict_getitem. by rewrite Hf. Qed.

Lemma getitem_cached it key v :
  forced_values (properties it) !! key = None →
  cache (properties it) !! _alias it key = Some v →
  __getitem__ it key = (Return v, it).
Proof.
  intros Hf Hc. unfold __getitem__, dict_getitem. by rewrite Hf, Hc.
Qed.

Lemma getitem_miss it key :
  forced_values (properties it) !! key = None →
  cache (properties it) !! _alias it key = None →
  __getitem__ it key =
    (Return (raw_read it (_alias it key)).1,
     __setitem__ (raw_read it (_alias it key)).2 (_alias it key)
                 (raw_read it (_alias it key)).1).
Proof.
  intros Hf Hc. unfold __getitem__, dict_getitem. rewrite Hf, Hc.
  pose proof (alias_raw_read it (_alias it key) key) as Ha.
  destruct (raw_read it (_alias it key)) as [v it1]; simpl in *.
  rewrite Ha, alias_setitem, Ha. by rewrite lookup_insert_eq.
Qed.

(** A lookup never raises: property access is total. *)
Lemma getitem_returns it key : ∃ v, (__getitem__ it key).1 = Return v.
Proof.
  destruct (forced_values (properties it) !! key) as [v|] eqn:Hf.
  { exists v. by rewrite (getitem_forced _ _ v). }
  destruct (cache (properties it) !! _alias it key) as [v|] eqn:Hc.
  { exists v. by rewrite (getitem_cached _ _ v). }
  eexists. by rewrite getitem_miss.
Qed.

(** What store operations leave alone. *)
Lemma raw_read_frame it name :
  _properties_aliases (raw_read it name).2 = _properties_aliases it ∧
  properties (raw_read it name).2 = properties it ∧
  raw_reads (raw_read it name).2 = (raw_reads it ++ [name])%list.
Proof.
  unfold raw_read. by destruct (_read_property_from_data _ _).
Qed.

Lemma getitem_frame it key :
  _properties_aliases (__getitem__ it key).2 = _properties_aliases it ∧
  forced_values (properties (__getitem__ it key).2)
    = forced_values (properties it).
Proof.
  destruct (forced_values (properties it) !! key) as [v|] eqn:Hf.
  { by rewrite (getitem_forced _ _ v). }
  destruct (cache (properties it) !! _alias it key) as [v|] eqn:Hc.
  { by rewrite (getitem_cached _ _ v). }
  rewrite getitem_miss by done. simpl.
  destruct (raw_read_frame it (_alias it key)) as (-> & -> & _). done.
Qed.

Lemma step_frame it op :
  _properties_aliases (step it op) = _properties_aliases it ∧
  forced_values (properties (step it op)) = forced_values (properties it).
Proof. destruct op; simpl; [apply getitem_frame | done]. Qed.

Lemma run_frame it ops :
  _properties_aliases (run it ops) = _properties_aliases it ∧
  forced_values (properties (run it ops)) = forced_values (properties it).
Proof.
  revert it. induction ops as [|op ops IH]; intros it; [done|].
  simpl. destruct (IH (step it op)) as [-> ->]. apply step_frame.
Qed.

Lemma alias_run it ops name : _alias (run it ops) name = _alias it name.
Proof. unfold _alias. by destruct (run_frame it ops) as [-> _]. Qed.

End StoreFacts.

Section Memoization.
Context {D : Type} `{ItemClass D}.
Implicit Types (it : Item D) (key name : string) (v : pyval).

Lemma reads_are_cached_new aliases forced (d : D) :
  reads_are_cached (new_item aliases forced d).
Proof. split; [constructor | intros name Hin; inversion Hin]. Qed.

Lemma reads_are_cached_setitem it key v :
  reads_are_cached it → reads_are_cached (__setitem__ it key v).
Proof.
  intros [Hnd Hc]. split; [done|]. intros name Hin. simpl.
  destruct (decide (key = name)) as [->|Hne].
  - rewrite lookup_insert_eq. eauto.
  - rewrite lookup_insert_ne by done. by apply Hc.
Qed.

Lemma reads_are_cached_getitem it key :
  reads_are_cached it → reads_are_cached (__getitem__ it key).2.
Proof.
  intros [Hnd Hc].
  destruct (forced_values (properties it) !! key) as [v|] eqn:Hf.
  { by rewrite (getitem_forced _ _ v). }
  destruct (cache (properties it) !! _alias it key) as [v|] eqn:Hm.
  { by rewrite (getitem_cached _ _ v). }
  rewrite getitem_miss by done. simpl.
  destruct (raw_read_frame it (_alias it key)) as (_ & Hp & Hr).
  split; simpl; rewrite ?Hr, ?Hp.
  - apply NoDup_app. split; [done|]. split; [|apply NoDup_singleton].
    intros name Hin ->%list_elem_of_singleton.
    apply Hc in Hin. rewrite Hm in Hin. by destruct Hin.
  - intros name [Hin | ->%list_elem_of_singleton]%elem_of_app.
    + destruct (decide (_alias it key = name)) as [->|Hne].
      * rewrite lookup_insert_eq. eauto.
      * rewrite lookup_insert_ne by done. by apply Hc.
    + rewrite lookup_insert_eq. eauto.
Qed.

Lemma reads_are_cached_run it ops :
  reads_are_cached it → reads_are_cached (run it ops).
Proof.
  revert it. induction ops as [|op ops IH]; intros it Hinv; [done|].
  simpl. apply IH. destruct op; simpl.
  - by apply reads_are_cached_getitem.
  - by apply reads_are_cached_setitem.
Qed.

(** Once a lookup has found a value in the cache, the entry stays as it
    is through lookups of any key and writes to other keys. *)
Lemma cache_entry_stable it name v ops :
  cache (properties it) !! name = Some v →
  no_write_to name ops →
  cache (properties (run it ops)) !! name = Some v.
Proof.
  revert it. induction ops as [|op ops IH]; intros it Hc Hw; [done|].
  unfold no_write_to in Hw. simpl in Hw.
  apply andb_prop in Hw as [Hop Hw]. simpl. apply IH; [|done].
  destruct op as [key|key value]; simpl in *.
  - destruct (forced_values (properties it) !! key) as [w|] eqn:Hf.
    { by rewrite (getitem_forced _ _ w). }
    destruct (cache (properties it) !! _alias it key) as [w|] eqn:Hm.
    { by rewrite (getitem_cached _ _ w). }
    rewrite getitem_miss by done. simpl.
    destruct (raw_read_frame it (_alias it key)) as (_ & -> & _).
    rewrite lookup_insert_ne; [done|]. intros Heq. congruence.
  - apply negb_true_iff, bool_decide_eq_false in Hop.
    by rewrite lookup_insert_ne.
Qed.

(** After a lookup of a name that is not forced, its aliased name is in
    the cache with the value that the lookup returned. *)
Lemma getitem_fills_cache it key :
  forced_values (properties it) !! key = None →
  ∃ v, (__getitem__ it key).1 = Return v ∧
       cache (properties (__getitem__ it key).2) !! _alias it key = Some v.
Proof.
  intros Hf.
  destruct (cache (properties it) !! _alias it key) as [v|] eqn:Hm.
  { exists v. by rewrite (getitem_cached _ _ v). }
  rewrite getitem_miss by done. simpl. eexists. split; [done|].
  by rewrite lookup_insert_eq.
Qed.

End Memoization.

(** * Forced values *)

Section ForcedValues.
Context {D : Type} `{ItemClass D}.
Implicit Types (it : Item D) (p : string) (v : pyval).

(** C3: when the forced values bind the property name [p] to [v], the
    lookup of [p] returns [v], for any raw-read hook (the item class is
    arbitrary), and the hook is not invoked: the item, with its data and
    its log of raw reads, is as it was. *)
Theorem forced_value_shadows_raw_read it p v :
  forced_values (properties it) !! p = Some v →
  __getitem__ it p = (Return v, it) ∧
  raw_reads (__getitem__ it p).2 = raw_reads it ∧
  data (__getitem__ it p).2 = data it.
Proof.
  intros Hf. by rewrite (getitem_forced it p v Hf).
Qed.

End ForcedValues.

(** The data of [forced_cork_item] would give ["I am a cork prop"]; the
    lookup gives the forced value and leaves the log empty. *)
Lemma forced_value_shadows_raw_read_witness :
  (_read_property_from_data (data forced_cork_item) "cork_prop").1
    = PyStr "I am a cork prop" ∧
  __getitem__ forced_cork_item "cork_prop"
    = (Return (PyStr "forced"), forced_cork_item) ∧
  raw_reads (__getitem__ forced_cork_item "cork_prop").2 = [].
Proof.
  split; [reflexivity|].
  destruct (forced_value_shadows_raw_read forced_cork_item "cork_prop"
              (PyStr "forced")) as (Hres & Hlog & _); [reflexivity|].
  split; [exact Hres | exact Hlog].
Defined.

(** * Memoization of raw reads *)

Section MemoizationClaim.
Context {D : Type} `{ItemClass D}.

(** C4: in any state [it] that a store reaches from its creation, for a
    property name [p] that is not forced: the raw-read hook has been
    invoked at most once per name (the log has no duplicate); the
    lookup of [p] returns a value [v] and does not raise; on a cache
    miss [v] is what the hook returns, [None] included, and the hook is
    invoked once, with the aliased name; every later lookup of [p],
    after lookups of any names and writes to other entries, returns
    the same [v] and changes nothing, so the hook is not invoked
    again. *)
Theorem lookup_is_memoized aliases forced (d : D) history p :
  let it := run (new_item aliases forced d) history in
  forced !! p = None →
  NoDup (raw_reads it) ∧
  ∃ v,
    (__getitem__ it p).1 = Return v ∧
    (cache (properties it) !! _alias it p = None →
       v = (_read_property_from_data (data it) (_alias it p)).1 ∧
       raw_reads (__getitem__ it p).2
         = (raw_reads it ++ [_alias it p])%list) ∧
    ∀ ops, no_write_to (_alias it p) ops →
      let it' := run (__getitem__ it p).2 ops in
      NoDup (raw_reads it') ∧
      __getitem__ it' p = (Return v, it').
Proof.
  intros it Hforced.
  assert (Hinv : reads_are_cached it).
  { apply reads_are_cached_run, reads_are_cached_new. }
  assert (Hf : forced_values (properties it) !! p = None).
  { unfold it. by destruct (run_frame (new_item aliases forced d) history)
      as [_ ->]. }
  split; [apply Hinv|].
  destruct (getitem_fills_cache it p Hf) as (v & Hv & Hc).
  exists v. split; [done|]. split.
  - intros Hm. rewrite getitem_miss in Hv |- * by done. simpl in *.
    destruct (raw_read_frame it (_alias it p)) as (_ & _ & Hr).
    split; [|done]. unfold raw_read in Hv.
    destruct (_read_property_from_data (data it) (_alias it p)).
    simpl in *. congruence.
  - intros ops Hw it'. split.
    { apply reads_are_cached_run, reads_are_cached_getitem, Hinv. }
    apply getitem_cached.
    + unfold it'. destruct (run_frame (__getitem__ it p).2 ops) as [_ ->].
      by destruct (getitem_frame it p) as [_ ->].
    + unfold it'. rewrite alias_run.
      assert (Ha : _alias (__getitem__ it p).2 p = _alias it p).
      { unfold _alias. by destruct (getitem_frame it p) as [-> _]. }
      rewrite Ha. by apply cache_entry_stable.
Qed.

End MemoizationClaim.

(** On [ticking_item] the first raw read gives [True] and a second one
    would give [False]; the lookup of ["p"] gives [True] the first time
    and again after other operations, with one raw read of ["p"]. *)
Lemma lookup_is_memoized_witness :
  (__getitem__ ticking_item "p").1 = Return (PyBool true) ∧
  (_read_property_from_data (data (__getitem__ ticking_item "p").2) "p").1
    = PyBool false ∧
  __getitem__ (run (__getitem__ ticking_item "p").2 ticking_ops) "p"
    = (Return (PyBool true),
       run (__getitem__ ticking_item "p").2 ticking_ops) ∧
  raw_reads (run (__getitem__ ticking_item "p").2 ticking_ops) = ["p"; "q"].
Proof.
  destruct (lookup_is_memoized (D:=nat) ∅ ∅ 0 [] "p")
    as (_ & v & Hv & _ & Hlater); [reflexivity|].
  assert (Hfirst : (__getitem__ ticking_item "p").1 = Return (PyBool true))
    by reflexivity.
  assert (v = PyBool true) as -> by (vm_compute in Hv; congruence).
  split; [exact Hfirst|]. split; [reflexivity|].
  split; [|reflexivity].
  destruct (Hlater ticking_ops) as [_ Hsame]; [reflexivity|].
  exact Hsame.
Defined.

(** * Resolution order of a lookup *)

Section ResolutionOrder.
Context {D : Type} `{ItemClass D}.
Implicit Types (it : Item D) (key name : string) (v : pyval).

(** C5, as amended: a lookup of [key] proceeds in this order.  (1) If
    [key] itself, not aliased, is in the forced values, its forced value
    is returned and nothing changes.  (2) Otherwise [key] is resolved
    through the alias table, and a cached value for the aliased name is
    returned if there is one.  (3) Otherwise the raw-read hook is called
    with the aliased name, its result is cached under the aliased name
    and returned.  Where the forced values hold the same for [key] and
    for its aliased name (the same value for both, or nothing for
    either), this is the order of the design document. *)
Theorem getitem_resolution_order it key :
  (∀ v, forced_values (properties it) !! key = Some v →
     __getitem__ it key = (Return v, it)) ∧
  (∀ v, forced_values (properties it) !! key = None →
     cache (properties it) !! _alias it key = Some v →
     __getitem__ it key = (Return v, it)) ∧
  (forced_values (properties it) !! key = None →
   cache (properties it) !! _alias it key = None →
   ∀ v d', _read_property_from_data (data it) (_alias it key) = (v, d') →
     __getitem__ it key =
       (Return v,
        mkItem (_properties_aliases it)
               (mkProps (forced_values (properties it))
                        (<[_alias it key := v]> (cache (properties it))))
               d' (raw_reads it ++ [_alias it key])%list)) ∧
  (forced_values (properties it) !! key
     = forced_values (properties it) !! _alias it key →
   __getitem__ it key = getitem_spec it key).
Proof.
  split; [|split; [|split]].
  - intros v Hf. by apply getitem_forced.
  - intros v Hf Hc. by apply getitem_cached.
  - intros Hf Hc v d' Hread. rewrite getitem_miss by done.
    unfold raw_read. rewrite Hread. reflexivity.
  - intros Hsame. unfold getitem_spec. simpl.
    destruct (forced_values (properties it) !! key) as [v|] eqn:Hf.
    { rewrite <- Hsame. by apply getitem_forced. }
    rewrite <- Hsame.
    destruct (cache (properties it) !! _alias it key) as [v|] eqn:Hc.
    { by apply getitem_cached. }
    rewrite getitem_miss by done.
    by destruct (raw_read it (_alias it key)).
Qed.

(** C8, as amended: when the alias table maps [a] to the canonical name
    [c] and neither [a] nor [c] is in the forced values, the lookups of
    [a] and of [c] are the same operation: they return the same value and
    leave the same state, in which the value is cached under [c]; the
    entry of [a] is not touched, and a lookup of [c] after the lookup of
    [a] reads that entry without a raw read. *)
Theorem alias_shares_canonical_entry it a c :
  _properties_aliases it !! a = Some c →
  _alias it c = c →
  forced_values (properties it) !! a = None →
  forced_values (properties it) !! c = None →
  __getitem__ it a = __getitem__ it c ∧
  ∃ v, (__getitem__ it a).1 = Return v ∧
       cache (properties (__getitem__ it a).2) !! c = Some v ∧
       (a ≠ c → cache (properties (__getitem__ it a).2) !! a
                = cache (properties it) !! a) ∧
       __getitem__ (__getitem__ it a).2 c
         = (Return v, (__getitem__ it a).2).
Proof.
  intros Hac Hcc Hfa Hfc.
  assert (Ha : _alias it a = c).
  { unfold _alias, dict_get. by rewrite Hac. }
  assert (Hsame : __getitem__ it a = __getitem__ it c).
  { destruct (cache (properties it) !! c) as [v|] eqn:Hc.
    - rewrite (getitem_cached it a v), (getitem_cached it c v);
        rewrite ?Ha, ?Hcc; done.
    - rewrite (getitem_miss it a), (getitem_miss it c);
        rewrite ?Ha, ?Hcc; done. }
  split; [done|].
  destruct (getitem_fills_cache it a Hfa) as (v & Hv & Hcache).
  rewrite Ha in Hcache. exists v. split; [done|]. split; [done|]. split.
  - intros Hne.
    destruct (cache (properties it) !! c) as [w|] eqn:Hc.
    + rewrite (getitem_cached it a w); rewrite ?Ha; done.
    + rewrite (getitem_miss it a); rewrite ?Ha; try done. simpl.
      destruct (raw_read_frame it c) as (_ & -> & _).
      by rewrite lookup_insert_ne.
  - destruct (getitem_frame it a) as [Hal Hfo].
    apply getitem_cached.
    + by rewrite Hfo.
    + unfold _alias in *. rewrite Hal, Hcc. done.
Qed.

End ResolutionOrder.

(** On [shadowed_cork_item] the alias ["I am aliased"] resolves to
    ["I am not aliased"], which is forced; the lookup of the alias does
    not return the forced value: it reads the data. *)
Lemma getitem_resolution_order_counterexample :
  _alias shadowed_cork_item "I am aliased" = "I am not aliased" ∧
  forced_values (properties shadowed_cork_item)
    !! _alias shadowed_cork_item "I am aliased" = Some (PyStr "forced") ∧
  (__getitem__ shadowed_cork_item "I am aliased").1
    = Return (PyStr "I am not aliased") ∧
  raw_reads (__getitem__ shadowed_cork_item "I am aliased").2
    = ["I am not aliased"] ∧
  (getitem_spec shadowed_cork_item "I am aliased").1
    = Return (PyStr "forced") ∧
  __getitem__ shadowed_cork_item "I am aliased"
    ≠ getitem_spec shadowed_cork_item "I am aliased".
Proof.
  repeat split; try reflexivity. intros Heq.
  apply (f_equal fst) in Heq. vm_compute in Heq. discriminate.
Qed.

(** A lookup of a name that is looked up as it is, with a value found in
    the cache and with a raw read. *)
Lemma getitem_resolution_order_witness :
  __getitem__ cork_item "b" = (Return (PyStr "B"), cork_item) ∧
  (__getitem__ cork_item "cork_prop").1 = Return (PyStr "I am a cork prop") ∧
  __getitem__ cork_item "I am aliased"
    = getitem_spec cork_item "I am aliased".
Proof.
  destruct (getitem_resolution_order cork_item "b") as (Hforced & _).
  destruct (getitem_resolution_order cork_item "cork_prop")
    as (_ & _ & Hmiss & _).
  destruct (getitem_resolution_order cork_item "I am aliased")
    as (_ & _ & _ & Hspec).
  split; [apply Hforced; reflexivity|].
  split; [|apply Hspec; reflexivity].
  rewrite (Hmiss eq_refl eq_refl (PyStr "I am a cork prop") tt eq_refl).
  reflexivity.
Defined.

(** The lookups of the alias and of its canonical name differ on
    [shadowed_cork_item], where the canonical name is forced. *)
Lemma alias_shares_canonical_entry_counterexample :
  _properties_aliases shadowed_cork_item !! "I am aliased"
    = Some "I am not aliased" ∧
  _alias shadowed_cork_item "I am not aliased" = "I am not aliased" ∧
  (__getitem__ shadowed_cork_item "I am aliased").1
    = Return (PyStr "I am not aliased") ∧
  (__getitem__ shadowed_cork_item "I am not aliased").1
    = Return (PyStr "forced") ∧
  (__getitem__ shadowed_cork_item "I am aliased").1
    ≠ (__getitem__ shadowed_cork_item "I am not aliased").1.
Proof.
  repeat split; try reflexivity. intros Heq. vm_compute in Heq. discriminate.
Qed.

(** The alias of the doctest: both names give ["I am not aliased"], from
    one cache entry and one raw read. *)
Lemma alias_shares_canonical_entry_witness :
  __getitem__ cork_item "I am aliased"
    = __getitem__ cork_item "I am not aliased" ∧
  (__getitem__ cork_item "I am aliased").1
    = Return (PyStr "I am not aliased") ∧
  __getitem__ (__getitem__ cork_item "I am aliased").2 "I am not aliased"
    = (Return (PyStr "I am not aliased"),
       (__getitem__ cork_item "I am aliased").2) ∧
  raw_reads (__getitem__ cork_item "I am aliased").2
    = ["I am not aliased"].
Proof.
  destruct (alias_shares_canonical_entry cork_item
              "I am aliased" "I am not aliased")
    as (Hsame & v & Hv & _ & _ & Hagain); try reflexivity.
  assert (v = PyStr "I am not aliased") as ->
    by (vm_compute in Hv; congruence).
  split; [exact Hsame|]. split; [exact Hv|]. split; [exact Hagain|].
  reflexivity.
Defined.

(** * Writes to the store *)

Section Writes.
Context {D : Type} `{ItemClass D}.
Implicit Types (it : Item D) (k : string) (v w f : pyval).

(** C9: a write [store[k] = v] puts [v] under [k] as given, without
    alias resolution, and touches nothing else.  Over all cache contents,
    data and written values, the lookup of [k] after the write returns
    the written value exactly when [k] is not in the forced values and
    the alias table maps [k] to itself.  When [k] is an alias of
    another name, [v] is in the cache under [k], while the lookup of [k]
    returns what it returned before the write, whatever [v] is: unless
    [k] is forced, it reads the entry of the canonical name (or the data,
    when that entry is missing). *)
Theorem write_then_read_round_trip it k :
  (∀ v, __setitem__ it k v
        = mkItem (_properties_aliases it)
                 (mkProps (forced_values (properties it))
                          (<[k := v]> (cache (properties it))))
                 (data it) (raw_reads it)) ∧
  ((∀ c d log v,
      let it' := mkItem (_properties_aliases it)
                        (mkProps (forced_values (properties it)) c) d log in
      (__getitem__ (__setitem__ it' k v) k).1 = Return v)
   ↔ forced_values (properties it) !! k = None ∧ _alias it k = k) ∧
  (_alias it k ≠ k →
   ∀ v, cache (properties (__setitem__ it k v)) !! k = Some v ∧
        (__getitem__ (__setitem__ it k v) k).1 = (__getitem__ it k).1 ∧
        (forced_values (properties it) !! k = None →
         (__getitem__ (__setitem__ it k v) k).1
           = Return (match cache (properties it) !! _alias it k with
                     | Some w => w
                     | None => (_read_property_from_data (data it)
                                  (_alias it k)).1
                     end))).
Proof.
  split; [done|]. split.
  - split.
    + intros Hround.
      destruct (forced_values (properties it) !! k) as [f|] eqn:Hf.
      { exfalso.
        specialize (Hround ∅ (data it) []
                      (if decide (f = PyNone) then PyBool true else PyNone)).
        simpl in Hround. rewrite (getitem_forced _ k f) in Hround by done.
        simpl in Hround. case_decide; congruence. }
      split; [done|].
      destruct (decide (_alias it k = k)) as [|Hne]; [done|exfalso].
      specialize (Hround {[ _alias it k := PyNone ]} (data it) []
                    (PyBool true)).
      simpl in Hround.
      rewrite (getitem_cached _ k PyNone) in Hround; [done|done|].
      simpl. change (_alias _ k) with (_alias it k).
      rewrite lookup_insert_ne by done. by rewrite lookup_singleton_eq.
    + intros [Hf Ha] c d log v it'.
      rewrite (getitem_cached _ k v); [done|done|].
      simpl. change (_alias _ k) with (_alias it k).
      rewrite Ha. by rewrite lookup_insert_eq.
  - intros Hne v. split; [by simpl; rewrite lookup_insert_eq|].
    destruct (forced_values (properties it) !! k) as [f|] eqn:Hf.
    { rewrite (getitem_forced _ k f), (getitem_forced it k f); done. }
    assert (Hother : cache (properties (__setitem__ it k v)) !! _alias it k
                     = cache (properties it) !! _alias it k).
    { simpl. by rewrite lookup_insert_ne. }
    destruct (cache (properties it) !! _alias it k) as [w|] eqn:Hc.
    + rewrite (getitem_cached _ k w), (getitem_cached it k w); done.
    + rewrite (getitem_miss (__setitem__ it k v) k),
        (getitem_miss it k) by done.
      simpl. unfold raw_read. simpl.
      change (_alias (__setitem__ it k v) k) with (_alias it k).
      by destruct (_read_property_from_data (data it) (_alias it k)).
Qed.

(** C10: no store operation changes the forced values; for a key [k]
    that is forced to [f], a write [store[k] = v] is recorded in the
    cache under [k], and every lookup of [k] after it, whatever other
    operations come in between, returns [f] and changes nothing; so
    [AtomItem.write] followed by [AtomItem.read] returns the forced
    content when ["_content"] is forced. *)
Theorem forced_value_survives_writes it k f :
  forced_values (properties it) !! k = Some f →
  (∀ ops, forced_values (properties (run it ops))
          = forced_values (properties it)) ∧
  (∀ v, cache (properties (__setitem__ it k v)) !! k = Some v ∧
        ∀ ops, __getitem__ (run (__setitem__ it k v) ops) k
               = (Return f, run (__setitem__ it k v) ops)) ∧
  (k = "_content" →
   ∀ w, AtomItem.read (AtomItem.write it w)
        = (Return f, AtomItem.write it w)).
Proof.
  intros Hf. split; [|split].
  - intros ops. apply run_frame.
  - intros v. split; [by simpl; rewrite lookup_insert_eq|].
    intros ops. apply getitem_forced.
    by destruct (run_frame (__setitem__ it k v) ops) as [_ ->].
  - intros -> w. by apply getitem_forced.
Qed.

(** C7, as amended: [read] and [write] are the lookup and the write of
    the entry ["_content"] of the property store.  For an atomic item
    whose forced values bind ["_content"] to [v], [read()] returns [v],
    and after [write(w)], [read()] still returns [v]: [w] is in the cache
    under ["_content"], behind the forced value.  When ["_content"] is
    not forced and is aliased to itself, [read()] after [write(w)]
    returns [w]. *)
Theorem atom_read_write it :
  AtomItem.read it = __getitem__ it "_content" ∧
  (∀ w, AtomItem.write it w = __setitem__ it "_content" w) ∧
  (∀ v, forced_values (properties it) !! "_content" = Some v →
     AtomItem.read it = (Return v, it) ∧
     ∀ w, AtomItem.read (AtomItem.write it w)
            = (Return v, AtomItem.write it w) ∧
          cache (properties (AtomItem.write it w)) !! "_content" = Some w) ∧
  (forced_values (properties it) !! "_content" = None →
   _alias it "_content" = "_content" →
   ∀ w, AtomItem.read (AtomItem.write it w)
        = (Return w, AtomItem.write it w)).
Proof.
  split; [done|]. split; [done|]. split.
  - intros v Hf. split; [by apply getitem_forced|].
    intros w. split; [by apply getitem_forced|].
    by simpl; rewrite lookup_insert_eq.
  - intros Hf Ha w. apply getitem_cached; [done|].
    simpl. change (_alias _ "_content") with (_alias it "_content").
    rewrite Ha. by rewrite lookup_insert_eq.
Qed.

End Writes.

(** On [cork_item], ["x"] is neither forced nor an alias, and a value
    written under it is read back; ["I am aliased"] is an alias, and a
    value written under it stays in the cache while the lookup reads the
    canonical name. *)
Lemma write_then_read_round_trip_witness :
  (__getitem__ (__setitem__ cork_item "x" (PyStr "written")) "x").1
    = Return (PyStr "written") ∧
  cache (properties (__setitem__ cork_item "I am aliased" (PyStr "written")))
    !! "I am aliased" = Some (PyStr "written") ∧
  (__getitem__ (__setitem__ cork_item "I am aliased" (PyStr "written"))
               "I am aliased").1
    = Return (PyStr "I am not aliased").
Proof.
  destruct (write_then_read_round_trip cork_item "x")
    as (_ & [_ Hround] & _).
  destruct (write_then_read_round_trip cork_item "I am aliased")
    as (_ & _ & Halias).
  split.
  - exact (Hround (conj eq_refl eq_refl) ∅ tt [] (PyStr "written")).
  - destruct Halias with (v := PyStr "written")
      as (Hstored & _ & Hread).
    + intros Heq. vm_compute in Heq. discriminate.
    + split; [exact Hstored|]. rewrite (Hread eq_refl). reflexivity.
Defined.

(** On [hello_atom] the content is forced: after a write and further
    operations the lookup still gives ["hello"]. *)
Lemma forced_value_survives_writes_witness :
  forced_values (properties hello_atom) !! "_content" = Some (PyStr "hello") ∧
  cache (properties (__setitem__ hello_atom "_content" (PyStr "world")))
    !! "_content" = Some (PyStr "world") ∧
  (__getitem__ (run (__setitem__ hello_atom "_content" (PyStr "world"))
                    [Lookup "_content"; Assign "_content" PyNone])
               "_content").1 = Return (PyStr "hello") ∧
  (AtomItem.read (AtomItem.write hello_atom (PyStr "world"))).1
    = Return (PyStr "hello").
Proof.
  destruct (forced_value_survives_writes hello_atom "_content"
              (PyStr "hello")) as (_ & Hwrite & Hatom); [reflexivity|].
  destruct (Hwrite (PyStr "world")) as [Hstored Hlater].
  split; [reflexivity|]. split; [exact Hstored|]. split.
  - by rewrite Hlater.
  - by rewrite (Hatom eq_refl).
Defined.

(** An atomic item built with the forced content ["hello"]: [read()]
    gives ["hello"], and after [write("world")] it gives ["hello"] again,
    not ["world"].  With the forced value under the key ["content"],
    [read()] does not find it: it reads ["_content"] from the data, where
    the cork data has nothing. *)
Lemma atom_read_write_counterexample :
  (AtomItem.read hello_atom).1 = Return (PyStr "hello") ∧
  (AtomItem.read (AtomItem.write (AtomItem.read hello_atom).2
                                 (PyStr "world"))).1
    = Return (PyStr "hello") ∧
  (AtomItem.read (AtomItem.write (AtomItem.read hello_atom).2
                                 (PyStr "world"))).1
    ≠ Return (PyStr "world") ∧
  (AtomItem.read hello_atom_content_key).1 = Return PyNone.
Proof.
  repeat split; try reflexivity. intros Heq. vm_compute in Heq. discriminate.
Qed.

(** [hello_atom] keeps its forced content through a write; [plain_atom]
    reads back what was written. *)
Lemma atom_read_write_witness :
  AtomItem.read hello_atom = (Return (PyStr "hello"), hello_atom) ∧
  AtomItem.read (AtomItem.write hello_atom (PyStr "world"))
    = (Return (PyStr "hello"), AtomItem.write hello_atom (PyStr "world")) ∧
  AtomItem.read (AtomItem.write plain_atom (PyStr "world"))
    = (Return (PyStr "world"), AtomItem.write plain_atom (PyStr "world")).
Proof.
  destruct (atom_read_write hello_atom) as (_ & _ & Hforced & _).
  destruct (atom_read_write plain_atom) as (_ & _ & _ & Hplain).
  destruct (Hforced (PyStr "hello")) as [Hread Hafter]; [reflexivity|].
  split; [exact Hread|]. split; [apply Hafter|].
  apply Hplain; reflexivity.
Defined.

(** * [matches] *)

Section Matches.
Context {D : Type} `{ItemClass D}.
Variable operators : gmap string (pyval → pyval → result pyval).
Implicit Types (it : Item D) (prop_name operator : string).
Implicit Types (value prop_val : pyval).

Lemma matches_name_error it prop_name operator value :
  (matches operators it prop_name operator value).1
    = Raise (NameError "_convert_value_type").
Proof.
  unfold matches.
  destruct (getitem_returns it prop_name) as [v Hv].
  destruct (__getitem__ it prop_name) as [r it1]. simpl in Hv. by subst r.
Qed.

Lemma matches_dispatch_not_bool operator prop_val value b :
  matches_dispatch operators operator prop_val value ≠ Return (PyBool b).
Proof.
  unfold matches_dispatch.
  destruct (operators !! operator) as [op|]; [|done].
  destruct (op prop_val value) as [r|[]]; done.
Qed.

(** C1 (what the code does instead): for every item, property name,
    operator symbol and comparison value, [matches] raises [NameError]
    for the bare name [_convert_value_type] and returns nothing; and the
    dispatch that follows in its body never yields a boolean, since the
    operator's result is not returned.  The documented [matches] returns
    the operator's answer, whose [=] and [!=] are equality with the
    converted value and its negation. *)
Theorem matches_never_returns_boolean it prop_name operator value :
  (matches operators it prop_name operator value).1
    = Raise (NameError "_convert_value_type") ∧
  (∀ b, (matches operators it prop_name operator value).1
        ≠ Return (PyBool b)) ∧
  (∀ prop_val b,
     matches_dispatch operators operator prop_val value ≠ Return (PyBool b)) ∧
  (∀ op prop_val, operators !! operator = Some op →
     (__getitem__ it prop_name).1 = Return prop_val →
     (matches_documented operators it prop_name operator value).1
       = op prop_val (_convert_value_type prop_name value)).
Proof.
  split; [apply matches_name_error|]. split; [|split].
  - intros b. by rewrite matches_name_error.
  - intros prop_val b. apply matches_dispatch_not_bool.
  - intros op prop_val Hop Hget. unfold matches_documented.
    destruct (__getitem__ it prop_name) as [r it1]. simpl in Hget. subst r.
    by rewrite Hop.
Qed.

(** C6 (what the code does instead): for an operator symbol that is not
    in the operator table, [matches] fails, and the failure reaches the
    caller, but it is the [NameError] of [_convert_value_type] and not
    operator-not-available; the handler of the missing symbol, were it
    reached, raises [NameError] as well, [OperatorNotAvailable] being a
    name that the module does not bind. *)
Theorem unknown_operator_raises_name_error it prop_name operator value :
  operators !! operator = None →
  (matches operators it prop_name operator value).1
    = Raise (NameError "_convert_value_type") ∧
  (matches operators it prop_name operator value).1
    ≠ Raise (OperatorNotAvailable operator) ∧
  (∀ prop_val, matches_dispatch operators operator prop_val value
               = Raise (NameError "OperatorNotAvailable")) ∧
  (matches_documented operators it prop_name operator value).1
    = Raise (OperatorNotAvailable operator).
Proof.
  intros Hop. split; [apply matches_name_error|]. split; [|split].
  - by rewrite matches_name_error.
  - intros prop_val. unfold matches_dispatch. by rewrite Hop.
  - unfold matches_documented.
    destruct (getitem_returns it prop_name) as [v Hv].
    destruct (__getitem__ it prop_name) as [r it1]. simpl in Hv. subst r.
    by rewrite Hop.
Qed.

End Matches.

(** [cork_item.matches("a", "=", "A")], the forced value of ["a"] being
    ["A"]: the documented answer is [True], the code raises. *)
Lemma matches_never_returns_boolean_witness :
  (matches equality_operators cork_item "a" "=" (PyStr "A")).1
    = Raise (NameError "_convert_value_type") ∧
  (matches_documented equality_operators cork_item "a" "=" (PyStr "A")).1
    = Return (PyBool true) ∧
  (matches_documented equality_operators cork_item "a" "!=" (PyStr "A")).1
    = Return (PyBool false).
Proof.
  destruct (matches_never_returns_boolean equality_operators cork_item
              "a" "=" (PyStr "A")) as (Hcode & _ & _ & Hdoc).
  destruct (matches_never_returns_boolean equality_operators cork_item
              "a" "!=" (PyStr "A")) as (_ & _ & _ & Hdoc').
  split; [exact Hcode|]. split.
  - rewrite (Hdoc _ (PyStr "A") eq_refl eq_refl). reflexivity.
  - rewrite (Hdoc' _ (PyStr "A") eq_refl eq_refl). reflexivity.
Defined.

(** [cork_item.matches("a", "?=", "A")] with the unknown symbol ["?="]. *)
Lemma unknown_operator_raises_name_error_witness :
  equality_operators !! "?=" = None ∧
  (matches equality_operators cork_item "a" "?=" (PyStr "A")).1
    = Raise (NameError "_convert_value_type") ∧
  matches_dispatch equality_operators "?=" (PyStr "A") (PyStr "A")
    = Raise (NameError "OperatorNotAvailable") ∧
  (matches_documented equality_operators cork_item "a" "?=" (PyStr "A")).1
    = Raise (OperatorNotAvailable "?=").
Proof.
  destruct (unknown_operator_raises_name_error equality_operators cork_item
              "a" "?=" (PyStr "A")) as (Hcode & _ & Hhandler & Hdoc);
    [reflexivity|].
  split; [reflexivity|]. split; [exact Hcode|].
  split; [apply Hhandler | exact Hdoc].
Defined.

(** * The site registry *)

Lemma access_point_registered_spec (site : Site.Site) (ap : Site.access_point) :
  Site.access_point_registered site ap = true ↔
  ∃ name, Site.access_points site !! name = Some ap.
Proof.
  unfold Site.access_point_registered. rewrite existsb_exists. split.
  - intros ([name ap'] & Hin & Heq).
    apply bool_decide_eq_true in Heq. simpl in Heq. subst ap'.
    exists name. by apply elem_of_map_to_list, list_elem_of_In.
  - intros [name Hname]. exists (name, ap). split.
    + by apply list_elem_of_In, elem_of_map_to_list.
    + by apply bool_decide_eq_true.
Qed.

(** C2: registering a name that is already bound fails with the
    duplicate-name condition; registering an access point instance that
    is already registered under any name, the same name included, fails
    with the duplicate-access-point condition; in both cases the bindings
    of the registry are unchanged; otherwise the binding of the name to
    the access point is inserted. *)
Theorem register_rejects_duplicates (site : Site.Site) (name : string)
    (ap : Site.access_point) :
  (is_Some (Site.access_points site !! name) →
     Site.fails_with Site.DuplicateName (Site.register site name ap) ∧
     (Site.register site name ap).2 = site) ∧
  ((∃ other, Site.access_points site !! other = Some ap) →
     Site.fails_with Site.DuplicateAccessPoint (Site.register site name ap) ∧
     (Site.register site name ap).2 = site) ∧
  (Site.access_points site !! name = None →
   (∀ other, Site.access_points site !! other ≠ Some ap) →
     Site.register site name ap
       = (Site.Registered,
          Site.mkSite (<[name := ap]> (Site.access_points site)))).
Proof.
  unfold Site.register, Site.fails_with. split; [|split].
  - intros Hname.
    assert (Site.name_registered site name = true) as ->
      by by apply bool_decide_eq_true.
    simpl. split; [|done]. apply list_elem_of_here.
  - intros Hap%access_point_registered_spec. rewrite Hap.
    destruct (Site.name_registered site name); simpl; (split; [|done]).
    + apply list_elem_of_further, list_elem_of_here.
    + apply list_elem_of_here.
  - intros Hname Hap.
    assert (Site.name_registered site name = false) as ->.
    { apply bool_decide_eq_false. rewrite Hname. by intros [? ?]. }
    destruct (Site.access_point_registered site ap) eqn:Hreg; [|done].
    apply access_point_registered_spec in Hreg as [other Hother].
    by destruct (Hap other).
Qed.

(** The tests: access point 1 is registered as ["things"]; registering it
    again as ["stuff"] fails, registering access point 2 as ["things"]
    fails, and the bindings stay as they were. *)
Lemma register_rejects_duplicates_witness :
  Site.register Site.new_site "things" 1
    = (Site.Registered, Site.mkSite {[ "things" := 1 ]}) ∧
  Site.fails_with Site.DuplicateAccessPoint
    (Site.register things_site "stuff" 1) ∧
  Site.fails_with Site.DuplicateName (Site.register things_site "things" 2) ∧
  (Site.register things_site "things" 2).2 = things_site ∧
  Site.fails_with Site.DuplicateName (Site.register things_site "things" 1) ∧
  Site.fails_with Site.DuplicateAccessPoint
    (Site.register things_site "things" 1).
Proof.
  destruct (register_rejects_duplicates Site.new_site "things" 1)
    as (_ & _ & Hfresh).
  destruct (register_rejects_duplicates things_site "stuff" 1)
    as (_ & Hap & _).
  destruct (register_rejects_duplicates things_site "things" 2)
    as (Hname & _ & _).
  destruct (register_rejects_duplicates things_site "things" 1)
    as (Hname' & Hap' & _).
  split.
  { rewrite Hfresh; [reflexivity | reflexivity |].
    intros other Hother. unfold Site.new_site in Hother. simpl in Hother.
    by rewrite lookup_empty in Hother. }
  assert (Hbound : is_Some (Site.access_points things_site !! "things"))
    by (exists 1; reflexivity).
  assert (Hreg : ∃ other, Site.access_points things_site !! other = Some 1)
    by (exists "things"; reflexivity).
  split; [apply Hap, Hreg|]. split; [apply Hname, Hbound|].
  split; [apply Hname, Hbound|]. split; [apply Hname', Hbound|].
  apply Hap', Hreg.
Defined.

(** * The doctest of [ItemProperties] *)

(** The lookups of the doctest, in its order, each on the store that the
    ones before it left: a name that the data knows, a forced name, a
    name that does not exist, the alias and its canonical name. *)
Example doctest_lookups :
  (__getitem__ cork_item "cork_prop").1 = Return (PyStr "I am a cork prop") ∧
  (__getitem__ (run cork_item [Lookup "cork_prop"]) "b").1
    = Return (PyStr "B") ∧
  (__getitem__ (run cork_item [Lookup "cork_prop"; Lookup "b"])
               "I do not exist").1 = Return PyNone ∧
  (__getitem__ (run cork_item [Lookup "cork_prop"; Lookup "b";
                               Lookup "I do not exist"])
               "I am aliased").1 = Return (PyStr "I am not aliased") ∧
  (__getitem__ (run cork_item [Lookup "cork_prop"; Lookup "b";
                               Lookup "I do not exist"; Lookup "I am aliased"])
               "I am not aliased").1 = Return (PyStr "I am not aliased") ∧
  raw_reads (run cork_item [Lookup "cork_prop"; Lookup "b";
                            Lookup "I do not exist"; Lookup "I am aliased";
                            Lookup "I am not aliased"])
    = ["cork_prop"; "I do not exist"; "I am not aliased"].
Proof. repeat split; reflexivity. Qed.

(** * Opening the stream *)

Section StreamFacts.
Context {F W : Type}.
Variable truth : F → bool.
Variable _opener : W → option F * W.
Implicit Types (st : StreamState F W) (w : W).

Lemma open_truthy st :
  truthy truth (_stream st) = true → _open truth _opener st = st.
Proof. intros Ht. unfold _open. by rewrite Ht. Qed.

Lemma open_falsy st :
  truthy truth (_stream st) = false →
  _open truth _opener st
    = mkStream (_opener (world st)).1 (_opener (world st)).2
               (S (opener_calls st)).
Proof.
  intros Ht. unfold _open. rewrite Ht. simpl.
  by destruct (_opener (world st)).
Qed.

(** X1: once a call of [_open] leaves a stream object that is true, any
    number of further calls changes nothing: the stream, the state of
    what was opened and the number of opener calls stay as they are.
    From construction, where [_stream] is [None], an opener that gives
    such an object is called once whatever the number of calls of
    [_open]. *)
Theorem open_opens_once st :
  truthy truth (_stream (_open truth _opener st)) = true →
  (∀ n, Nat.iter n (_open truth _opener) (_open truth _opener st)
        = _open truth _opener st) ∧
  (∀ n, (opener_calls (Nat.iter (S n) (_open truth _opener) st)
         ≤ S (opener_calls st))%nat) ∧
  (∀ w n, st = new_stream w →
     Nat.iter (S n) (_open truth _opener) st
       = mkStream (_opener w).1 (_opener w).2 1).
Proof.
  intros Ht.
  assert (Hiter : ∀ n, Nat.iter n (_open truth _opener)
                         (_open truth _opener st)
                       = _open truth _opener st).
  { induction n as [|n IH]; [done|]. simpl. rewrite IH.
    by apply open_truthy. }
  assert (Hshift : ∀ n, Nat.iter (S n) (_open truth _opener) st
                        = Nat.iter n (_open truth _opener)
                            (_open truth _opener st)).
  { intros n. induction n as [|n IH]; [done|].
    change (Nat.iter (S (S n)) (_open truth _opener) st)
      with (_open truth _opener (Nat.iter (S n) (_open truth _opener) st)).
    by rewrite IH. }
  split; [done|]. split.
  - intros n. rewrite Hshift, Hiter.
    destruct (truthy truth (_stream st)) eqn:Hst.
    + rewrite open_truthy by done. lia.
    + rewrite open_falsy by done. simpl. lia.
  - intros w n ->. rewrite Hshift, Hiter. by rewrite open_falsy.
Qed.

(** X2: when a call of [_open] leaves [None] or a stream object that is
    false, that call and the next one both call the opener, the second
    on the state that the first left, and the stream of the first call
    is replaced. *)
Theorem open_reopens_false_stream st :
  truthy truth (_stream (_open truth _opener st)) = false →
  opener_calls (_open truth _opener (_open truth _opener st))
    = S (S (opener_calls st)) ∧
  _stream (_open truth _opener (_open truth _opener st))
    = (_opener (_opener (world st)).2).1.
Proof.
  intros Hf.
  assert (Hst : truthy truth (_stream st) = false).
  { destruct (truthy truth (_stream st)) eqn:Hst; [|done].
    rewrite open_truthy in Hf by done. congruence. }
  rewrite (open_falsy (_open truth _opener st)) by done.
  rewrite (open_falsy st) by done. done.
Qed.

End StreamFacts.

(** The opener of a text buffer is called once by three calls of
    [_open]. *)
Lemma open_opens_once_witness :
  Nat.iter 3 (_open buffer_truth text_opener) (new_stream 0)
    = mkStream (Some "some text") 1 1.
Proof.
  destruct (open_opens_once buffer_truth text_opener (new_stream 0))
    as (_ & _ & Hnew); [reflexivity|].
  exact (Hnew 0 2 eq_refl).
Defined.

(** The opener of an empty buffer is called by each of two calls of
    [_open]. *)
Lemma open_reopens_false_stream_witness :
  opener_calls (_open buffer_truth empty_opener
                  (_open buffer_truth empty_opener (new_stream 0))) = 2 ∧
  world (_open buffer_truth empty_opener
           (_open buffer_truth empty_opener (new_stream 0))) = 2.
Proof.
  destruct (open_reopens_false_stream buffer_truth empty_opener
              (new_stream 0)) as [Hcalls _]; [reflexivity|].
  split; [exact Hcalls | reflexivity].
Defined.

(** * What a run of lookups and writes does to the store *)

Set Warnings "-clear-no-such-hyp".

Section RunEffects.
Context {D : Type} `{ItemClass D}.
Implicit Types (it : Item D) (key name : string) (v : pyval).
Implicit Types (ops : list store_op).

Lemma step_effects it op :
  ∃ reads,
    raw_reads (step it op) = (raw_reads it ++ reads)%list ∧
    (∀ name, name ∈ reads →
       cache (properties it) !! name = None ∧
       ∃ key, op = Lookup key ∧
              forced_values (properties it) !! key = None ∧
              _alias it key = name) ∧
    dom (cache (properties (step it op)))
      =@{gset string} dom (cache (properties it)) ∪ list_to_set reads
                      ∪ list_to_set (assigned_keys [op]).
Proof.
  destruct op as [key|key value]; simpl.
  - destruct (forced_values (properties it) !! key) as [v|] eqn:Hf.
    { exists []. rewrite (getitem_forced _ _ v) by done. simpl.
      rewrite app_nil_r. split; [done|]. split; [|set_solver].
      intros name Hin. inversion Hin. }
    destruct (cache (properties it) !! _alias it key) as [v|] eqn:Hc.
    { exists []. rewrite (getitem_cached _ _ v) by done. simpl.
      rewrite app_nil_r. split; [done|]. split; [|set_solver].
      intros name Hin. inversion Hin. }
    exists [_alias it key]. rewrite getitem_miss by done. simpl.
    destruct (raw_read_frame it (_alias it key)) as (_ & -> & ->).
    split; [done|]. split.
    + intros name ->%list_elem_of_singleton. eauto.
    + rewrite dom_insert_L. set_solver.
  - exists []. rewrite app_nil_r. split; [done|]. split.
    + intros name Hin. inversion Hin.
    + rewrite dom_insert_L. set_solver.
Qed.

Lemma run_effects it ops :
  ∃ reads,
    raw_reads (run it ops) = (raw_reads it ++ reads)%list ∧
    (∀ name, name ∈ reads →
       cache (properties it) !! name = None ∧
       ∃ key, Lookup key ∈ ops ∧
              forced_values (properties it) !! key = None ∧
              _alias it key = name) ∧
    dom (cache (properties (run it ops)))
      =@{gset string} dom (cache (properties it)) ∪ list_to_set reads
                      ∪ list_to_set (assigned_keys ops).
Proof.
  revert it. induction ops as [|op ops IH]; intros it.
  { exists []. simpl. rewrite app_nil_r. split; [done|]. split.
    - intros name Hin. inversion Hin.
    - set_solver. }
  destruct (step_effects it op) as (r0 & Hr0 & Hin0 & Hdom0).
  destruct (IH (step it op)) as (r1 & Hr1 & Hin1 & Hdom1).
  destruct (step_frame it op) as [Hal Hfo].
  exists (r0 ++ r1)%list.
  change (run it (op :: ops)) with (run (step it op) ops).
  split; [|split].
  - rewrite Hr1, Hr0. by rewrite app_assoc.
  - intros name [Hin|Hin]%elem_of_app.
    + destruct (Hin0 name Hin) as (Hc & key & -> & Hf & Ha).
      split; [done|]. exists key. split; [apply list_elem_of_here|done].
    + destruct (Hin1 name Hin) as (Hc & key & Hop & Hf & Ha).
      split.
      * apply not_elem_of_dom. apply not_elem_of_dom in Hc.
        rewrite Hdom0 in Hc. set_solver.
      * exists key. split; [by apply list_elem_of_further|].
        rewrite <- Hfo. split; [done|].
        unfold _alias in *. by rewrite <- Hal.
  - rewrite Hdom1, Hdom0, list_to_set_app_L.
    assert (Hk : assigned_keys (op :: ops)
                 = (assigned_keys [op] ++ assigned_keys ops)%list).
    { by destruct op. }
    rewrite Hk, list_to_set_app_L. set_solver.
Qed.

(** X3: a lookup never removes or overwrites an entry of the store: every
    entry that is there before is there after, with its value; the only
    entry that a lookup can add is the one of the aliased name, and the
    alias table and the forced values stay as they are. *)
Theorem lookup_keeps_entries it key :
  cache (properties it) ⊆ cache (properties (__getitem__ it key).2) ∧
  (∀ name, name ≠ _alias it key →
     cache (properties (__getitem__ it key).2) !! name
       = cache (properties it) !! name) ∧
  _properties_aliases (__getitem__ it key).2 = _properties_aliases it ∧
  forced_values (properties (__getitem__ it key).2)
    = forced_values (properties it).
Proof.
  split; [|split; [|apply getitem_frame]].
  - destruct (forced_values (properties it) !! key) as [v|] eqn:Hf.
    { by rewrite (getitem_forced _ _ v). }
    destruct (cache (properties it) !! _alias it key) as [v|] eqn:Hc.
    { by rewrite (getitem_cached _ _ v). }
    rewrite getitem_miss by done. simpl.
    destruct (raw_read_frame it (_alias it key)) as (_ & -> & _).
    by apply insert_subseteq.
  - intros name Hne.
    destruct (forced_values (properties it) !! key) as [v|] eqn:Hf.
    { by rewrite (getitem_forced _ _ v). }
    destruct (cache (properties it) !! _alias it key) as [v|] eqn:Hc.
    { by rewrite (getitem_cached _ _ v). }
    rewrite getitem_miss by done. simpl.
    destruct (raw_read_frame it (_alias it key)) as (_ & -> & _).
    by rewrite lookup_insert_ne.
Qed.

(** X4: a name that has an entry in the store, read earlier or written by
    a client, is never read from the data again: no run of lookups and
    writes adds it to the log of raw reads. *)
Theorem cached_name_is_not_read_again it name ops :
  is_Some (cache (properties it) !! name) →
  ∃ reads, raw_reads (run it ops) = (raw_reads it ++ reads)%list ∧
           name ∉ reads.
Proof.
  intros Hsome. destruct (run_effects it ops) as (reads & Hr & Hin & _).
  exists reads. split; [done|]. intros Hname.
  destruct (Hin name Hname) as [Hnone _].
  rewrite Hnone in Hsome. by destruct Hsome.
Qed.

(** X5: over the life of a store, every raw read comes from a lookup:
    every name in the log of raw reads is the aliased name of some key
    that a lookup of the run asked for, and that key is not forced.  (The
    name that is read can itself be forced, or never asked for as such,
    when it is the aliased name of such a key.) *)
Theorem raw_reads_were_asked_for aliases forced (d : D) ops name :
  name ∈ raw_reads (run (new_item aliases forced d) ops) →
  ∃ key, Lookup key ∈ ops ∧ forced !! key = None ∧
         dict_get aliases key key = name.
Proof.
  intros Hin.
  destruct (run_effects (new_item aliases forced d) ops)
    as (reads & Hr & Hreads & _).
  rewrite Hr in Hin. simpl in Hin.
  destruct (Hreads name Hin) as (_ & key & Hop & Hf & Ha). eauto.
Qed.

(** X6: the keys of the dict that the store is (what [len], [in] and
    iteration show) are the names read from the data and the keys
    written by clients, and nothing else: a forced key or an alias is
    among them only if it was read or written as such. *)
Theorem store_keys_are_reads_and_writes aliases forced (d : D) ops :
  dom (cache (properties (run (new_item aliases forced d) ops)))
    =@{gset string}
  list_to_set (raw_reads (run (new_item aliases forced d) ops))
    ∪ list_to_set (assigned_keys ops).
Proof.
  destruct (run_effects (new_item aliases forced d) ops)
    as (reads & Hr & _ & Hdom).
  rewrite Hdom, Hr. simpl. rewrite dom_empty_L. set_solver.
Qed.

End RunEffects.

(** * Order of lookups *)

Section LookupOrder.
Context {D : Type} `{ItemClass D}.
Implicit Types (it : Item D) (key name : string) (v : pyval).

(** A lookup finds its value without a raw read, or it makes a raw read
    and stores the value. *)
Lemma getitem_cases it key :
  (∃ v, __getitem__ it key = (Return v, it) ∧
        (forced_values (properties it) !! key = Some v ∨
         forced_values (properties it) !! key = None ∧
         cache (properties it) !! _alias it key = Some v)) ∨
  (forced_values (properties it) !! key = None ∧
   cache (properties it) !! _alias it key = None ∧
   __getitem__ it key =
     (Return (_read_property_from_data (data it) (_alias it key)).1,
      mkItem (_properties_aliases it)
             (mkProps (forced_values (properties it))
                      (<[_alias it key
                         := (_read_property_from_data (data it)
                               (_alias it key)).1]>
                         (cache (properties it))))
             (_read_property_from_data (data it) (_alias it key)).2
             (raw_reads it ++ [_alias it key])%list)).
Proof.
  destruct (forced_values (properties it) !! key) as [v|] eqn:Hf.
  { left. exists v. split; [by apply getitem_forced | by left]. }
  destruct (cache (properties it) !! _alias it key) as [v|] eqn:Hc.
  { left. exists v. split; [by apply getitem_cached | by right]. }
  right. split; [done|]. split; [done|].
  rewrite getitem_miss by done. unfold raw_read.
  by destruct (_read_property_from_data (data it) (_alias it key)).
Qed.

(** A second lookup of a key returns what the first returned and changes
    nothing. *)
Lemma getitem_idempotent it key :
  __getitem__ (__getitem__ it key).2 key
    = ((__getitem__ it key).1, (__getitem__ it key).2).
Proof.
  destruct (getitem_cases it key) as [(v & Hv & _)|(Hf & Hc & Hmiss)].
  { by rewrite Hv. }
  rewrite Hmiss. simpl. apply getitem_cached; [done|].
  simpl. change (_alias _ key) with (_alias it key).
  by rewrite lookup_insert_eq.
Qed.

(** The result of a lookup, the entries and the data that it leaves, read
    off the forced values and the entries before it. *)
Lemma getitem_closed_form it key :
  (__getitem__ it key).1
    = Return (match forced_values (properties it) !! key with
              | Some v => v
              | None =>
                  match cache (properties it) !! _alias it key with
                  | Some v => v
                  | None => (_read_property_from_data (data it)
                               (_alias it key)).1
                  end
              end) ∧
  cache (properties (__getitem__ it key).2)
    = match forced_values (properties it) !! key with
      | Some _ => cache (properties it)
      | None =>
          match cache (properties it) !! _alias it key with
          | Some _ => cache (properties it)
          | None => <[_alias it key
                      := (_read_property_from_data (data it)
                            (_alias it key)).1]> (cache (properties it))
          end
      end ∧
  data (__getitem__ it key).2
    = match forced_values (properties it) !! key with
      | Some _ => data it
      | None =>
          match cache (properties it) !! _alias it key with
          | Some _ => data it
          | None => (_read_property_from_data (data it) (_alias it key)).2
          end
      end.
Proof.
  destruct (getitem_cases it key)
    as [(v & -> & [Hf|[Hf Hc]])|(Hf & Hc & ->)]; simpl;
    rewrite Hf, ?Hc; done.
Qed.

(** X7: when the raw read leaves the data as it found it, two lookups
    can be made in either order: each returns what it would return if it
    came first, and the store holds the same entries and the same data
    after both. *)
Theorem lookups_commute it key1 key2 :
  repeatable_read D →
  (__getitem__ (__getitem__ it key1).2 key2).1 = (__getitem__ it key2).1 ∧
  cache (properties (run it [Lookup key1; Lookup key2]))
    = cache (properties (run it [Lookup key2; Lookup key1])) ∧
  data (run it [Lookup key1; Lookup key2]) = data it.
Proof.
  intros Hrep.
  assert (Hframe : ∀ ka,
            forced_values (properties (__getitem__ it ka).2)
              = forced_values (properties it) ∧
            (∀ k, _alias (__getitem__ it ka).2 k = _alias it k) ∧
            data (__getitem__ it ka).2 = data it).
  { intros ka. destruct (getitem_frame it ka) as [Hal Hfo].
    split; [done|]. split.
    - intros k. unfold _alias. by rewrite Hal.
    - destruct (getitem_closed_form it ka) as (_ & _ & ->).
      destruct (forced_values (properties it) !! ka); [done|].
      destruct (cache (properties it) !! _alias it ka); [done|].
      apply Hrep. }
  change (run it [Lookup key1; Lookup key2])
    with (__getitem__ (__getitem__ it key1).2 key2).2.
  change (run it [Lookup key2; Lookup key1])
    with (__getitem__ (__getitem__ it key2).2 key1).2.
  destruct (Hframe key1) as (Hf1 & Ha1 & Hd1).
  destruct (Hframe key2) as (Hf2 & Ha2 & Hd2).
  destruct (getitem_closed_form it key1) as (V1 & C1 & _).
  destruct (getitem_closed_form it key2) as (V2 & C2 & _).
  destruct (getitem_closed_form (__getitem__ it key1).2 key2)
    as (V12 & C12 & D12).
  destruct (getitem_closed_form (__getitem__ it key2).2 key1)
    as (_ & C21 & _).
  rewrite Hf1, Ha1, Hd1, C1 in V12, C12, D12.
  rewrite Hf2, Ha2, Hd2, C2 in C21.
  rewrite V12, V2, C12, C21, D12. clear V1 V2 V12 C1 C2 C12 C21 D12.
  pose proof (Hrep (data it) (_alias it key2)) as Hrep2.
  destruct (forced_values (properties it) !! key1),
    (forced_values (properties it) !! key2); try done;
    destruct (cache (properties it) !! _alias it key1) eqn:E1,
      (cache (properties it) !! _alias it key2) eqn:E2;
    rewrite ?E1, ?E2; try done;
    destruct (decide (_alias it key1 = _alias it key2)) as [Heq|Hne];
    try (rewrite Heq in *);
    simplify_map_eq; try done.
  by rewrite insert_insert_ne.
Qed.

End LookupOrder.

(** On [cork_item], whose raw read has no state, the lookups of
    ["cork_prop"] and of ["I am aliased"] in the two orders. *)
Lemma lookups_commute_witness :
  (__getitem__ (__getitem__ cork_item "cork_prop").2 "I am aliased").1
    = Return (PyStr "I am not aliased") ∧
  cache (properties (run cork_item [Lookup "cork_prop";
                                    Lookup "I am aliased"]))
    = cache (properties (run cork_item [Lookup "I am aliased";
                                        Lookup "cork_prop"])).
Proof.
  destruct (lookups_commute cork_item "cork_prop" "I am aliased")
    as (Hvalue & Hcache & _).
  { intros [] name. reflexivity. }
  split; [|exact Hcache]. rewrite Hvalue. reflexivity.
Defined.

(** An entry that is there stays, and a lookup of ["cork_prop"] leaves the
    entry of another name alone. *)
Lemma lookup_keeps_entries_witness :
  cache (properties (__getitem__ (__setitem__ cork_item "x" PyNone)
                                 "cork_prop").2) !! "x" = Some PyNone.
Proof.
  destruct (lookup_keeps_entries (__setitem__ cork_item "x" PyNone)
              "cork_prop") as (_ & Hother & _).
  rewrite Hother; [reflexivity|].
  intros Heq. vm_compute in Heq. discriminate.
Defined.

(** A client writes ["cork_prop"] before any lookup: the lookups that
    follow never read it from the data. *)
Lemma cached_name_is_not_read_again_witness :
  ∃ reads,
    raw_reads (run (__setitem__ cork_item "cork_prop" (PyStr "mine"))
                   [Lookup "cork_prop"; Lookup "I am aliased"])
      = ([] ++ reads)%list ∧
    "cork_prop" ∉ reads.
Proof.
  apply (cached_name_is_not_read_again
           (__setitem__ cork_item "cork_prop" (PyStr "mine")) "cork_prop").
  exists (PyStr "mine"). reflexivity.
Defined.

(** The raw read of ["I am not aliased"] on [cork_item] comes from the
    lookup of its alias. *)
Lemma raw_reads_were_asked_for_witness :
  ∃ key, Lookup key ∈ [Lookup "b"; Lookup "I am aliased"] ∧
         ({[ "a" := PyStr "A"; "b" := PyStr "B" ]} : gmap string pyval)
           !! key = None ∧
         dict_get cork_aliases key key = "I am not aliased".
Proof.
  apply (raw_reads_were_asked_for (D:=unit) cork_aliases
           {[ "a" := PyStr "A"; "b" := PyStr "B" ]} tt
           [Lookup "b"; Lookup "I am aliased"] "I am not aliased").
  apply list_elem_of_here.
Defined.

(** * More on [matches] *)

Section MatchesEffects.
Context {D : Type} `{ItemClass D}.
Variable operators : gmap string (pyval → pyval → result pyval).
Implicit Types (it : Item D) (prop_name operator : string).
Implicit Types (value prop_val : pyval).

(** X8: a call of [matches] fails after it has looked the property up:
    it leaves the store as the lookup of [prop_name] leaves it, whatever
    the operator and the value, so a raw read that the lookup needs is
    made and cached, and the lookup of [prop_name] that follows the
    failed call returns the value without a raw read. *)
Theorem matches_leaves_lookup_done it prop_name operator value :
  (matches operators it prop_name operator value).2
    = (__getitem__ it prop_name).2 ∧
  __getitem__ (matches operators it prop_name operator value).2 prop_name
    = ((__getitem__ it prop_name).1,
       (matches operators it prop_name operator value).2) ∧
  raw_reads (__getitem__
               (matches operators it prop_name operator value).2
               prop_name).2
    = raw_reads (__getitem__ it prop_name).2.
Proof.
  assert (Hstate : (matches operators it prop_name operator value).2
                   = (__getitem__ it prop_name).2).
  { unfold matches. destruct (getitem_returns it prop_name) as [v Hv].
    destruct (__getitem__ it prop_name) as [r it1]. simpl in Hv.
    by subst r. }
  rewrite Hstate, getitem_idempotent. done.
Qed.

(** X9: what the [try] block of [matches] makes of the operator's
    outcome.  When the operator returns, its value is dropped and [None]
    comes out.  When the operator itself raises a [KeyError], the handler
    takes it for a missing symbol: the outcome is the one of a symbol
    that is not in the table.  Any other exception of the operator goes
    through as it is. *)
Theorem dispatch_outcomes operator op prop_val value :
  operators !! operator = Some op →
  (∀ r, op prop_val value = Return r →
     matches_dispatch operators operator prop_val value = Return PyNone) ∧
  (∀ key, op prop_val value = Raise (KeyError key) →
     matches_dispatch operators operator prop_val value
       = Raise (NameError "OperatorNotAvailable") ∧
     ∀ missing, operators !! missing = None →
       matches_dispatch operators operator prop_val value
         = matches_dispatch operators missing prop_val value) ∧
  (∀ e, op prop_val value = Raise e → (∀ key, e ≠ KeyError key) →
     matches_dispatch operators operator prop_val value = Raise e).
Proof.
  intros Hop. unfold matches_dispatch. rewrite Hop. split; [|split].
  - by intros r ->.
  - intros key ->. split; [done|]. by intros missing ->.
  - intros e -> Hne. destruct e; try done. by destruct (Hne key).
Qed.

End MatchesEffects.

(** The operator ["="] returns and [None] comes out; the operator ["in"]
    raises a [KeyError] and ends as the unknown symbol ["?="] does. *)
Lemma dispatch_outcomes_witness :
  matches_dispatch faulty_operators "=" (PyStr "A") (PyStr "A")
    = Return PyNone ∧
  matches_dispatch faulty_operators "in" (PyStr "A") (PyStr "A")
    = matches_dispatch faulty_operators "?=" (PyStr "A") (PyStr "A").
Proof.
  destruct (dispatch_outcomes faulty_operators "="
              (λ a b, Return (PyBool (bool_decide (a = b))))
              (PyStr "A") (PyStr "A")) as (Hret & _); [reflexivity|].
  destruct (dispatch_outcomes faulty_operators "in"
              (λ a b, Raise (KeyError "b"))
              (PyStr "A") (PyStr "A")) as (_ & Hkey & _); [reflexivity|].
  split.
  - exact (Hret _ eq_refl).
  - destruct (Hkey "b" eq_refl) as [_ Hmissing]. apply Hmissing.
    reflexivity.
Defined.

(** * Lookups over a raw read that raises *)

Section FallibleReadFacts.
Context {D : Type}.
Implicit Types (it : Item D) (key name : string) (v : pyval).

(** Over the raw read of an item class, which returns, the lookup is
    [__getitem__]. *)
Lemma getitem_fallible_total `{ItemClass D} it key :
  getitem_fallible total_read_hook it key
    = (attempt_of_result (__getitem__ it key).1, (__getitem__ it key).2).
Proof.
  unfold getitem_fallible, __getitem__, total_read_hook, raw_read.
  destruct (dict_getitem (forced_values (properties it)) key) as [v|[]];
    try done.
  destruct (dict_getitem (cache (properties it)) (_alias it key)) as [v|[]];
    try done.
  by destruct (_read_property_from_data (data it) (_alias it key)).
Qed.

(** X10: when the raw read raises, the lookup raises the same exception,
    a [KeyError] included, and stores nothing: the entries and the
    forced values are as before.  The failure is not remembered: a second
    lookup of the key calls the raw read again. *)
Theorem failed_read_is_not_cached
    (read_hook : D → string → attempt pyval * D) it key r d' :
  forced_values (properties it) !! key = None →
  cache (properties it) !! _alias it key = None →
  read_hook (data it) (_alias it key) = (Raises r, d') →
  (getitem_fallible read_hook it key).1 = Raises r ∧
  properties (getitem_fallible read_hook it key).2 = properties it ∧
  raw_reads (getitem_fallible read_hook
               (getitem_fallible read_hook it key).2 key).2
    = (raw_reads it ++ [_alias it key; _alias it key])%list.
Proof.
  intros Hf Hc Hread.
  assert (Hfirst : getitem_fallible read_hook it key
                   = (Raises r,
                      mkItem (_properties_aliases it) (properties it) d'
                             (raw_reads it ++ [_alias it key])%list)).
  { unfold getitem_fallible, dict_getitem. by rewrite Hf, Hc, Hread. }
  rewrite Hfirst. simpl. split; [done|]. split; [done|].
  unfold getitem_fallible, dict_getitem. simpl.
  change (_alias _ key) with (_alias it key). rewrite Hf, Hc.
  destruct (read_hook d' (_alias it key)) as [[v|e] d'']; simpl;
    by rewrite <- app_assoc.
Qed.

(** X11: an item of a class that binds the alias table
    [_properties_aliases] and leaves [_read_property_from_data] as
    [BaseItem] defines it.  A lookup returns [v] exactly when the key is
    forced to [v], or is not forced and its aliased name has the entry
    [v]; any other lookup raises [NotImplementedError("Abstract class")];
    and no lookup changes the entries. *)
Theorem inherited_raw_read_lookup it key :
  (∀ v, (getitem_fallible BaseItem_read_property_from_data it key).1
          = Returns v ↔
        forced_values (properties it) !! key = Some v ∨
        forced_values (properties it) !! key = None ∧
        cache (properties it) !! _alias it key = Some v) ∧
  (forced_values (properties it) !! key = None →
   cache (properties it) !! _alias it key = None →
   (getitem_fallible BaseItem_read_property_from_data it key).1
     = Raises (NotImplementedError "Abstract class")) ∧
  properties (getitem_fallible BaseItem_read_property_from_data it key).2
    = properties it.
Proof.
  unfold getitem_fallible, dict_getitem, BaseItem_read_property_from_data.
  destruct (forced_values (properties it) !! key) as [w|] eqn:Hf; simpl.
  { split; [|done]. intros v. split.
    - intros [= ->]. by left.
    - intros [[= ->]|[? _]]; done. }
  destruct (cache (properties it) !! _alias it key) as [w|] eqn:Hc; simpl.
  { split; [|done]. intros v. split.
    - intros [= ->]. by right.
    - intros [?|[_ [= ->]]]; done. }
  split; [|done]. intros v. split; [done|].
  intros [?|[_ ?]]; done.
Qed.

End FallibleReadFacts.

(** A raw read that refuses every name, with a [KeyError]. *)
Lemma failed_read_is_not_cached_witness :
  (getitem_fallible (λ (d : unit) name, (Raises (Builtin (KeyError name)), d))
     unaliased_item "x").1 = Raises (Builtin (KeyError "x")) ∧
  raw_reads (getitem_fallible
               (λ (d : unit) name, (Raises (Builtin (KeyError name)), d))
               (getitem_fallible
                  (λ (d : unit) name, (Raises (Builtin (KeyError name)), d))
                  unaliased_item "x").2 "x").2 = ["x"; "x"].
Proof.
  destruct (failed_read_is_not_cached
              (λ (d : unit) name, (Raises (Builtin (KeyError name)), d))
              unaliased_item "x" (Builtin (KeyError "x")) tt)
    as (Hraise & _ & Hlog); try reflexivity.
  split; [exact Hraise | exact Hlog].
Defined.

(** [unaliased_item]: the forced ["a"] is found, a written ["x"] is found,
    and ["y"] raises. *)
Lemma inherited_raw_read_lookup_witness :
  (getitem_fallible BaseItem_read_property_from_data unaliased_item "a").1
    = Returns (PyStr "A") ∧
  (getitem_fallible BaseItem_read_property_from_data
     (__setitem__ unaliased_item "x" PyNone) "x").1 = Returns PyNone ∧
  (getitem_fallible BaseItem_read_property_from_data unaliased_item "y").1
    = Raises (NotImplementedError "Abstract class").
Proof.
  destruct (inherited_raw_read_lookup unaliased_item "a") as (Ha & _ & _).
  destruct (inherited_raw_read_lookup
              (__setitem__ unaliased_item "x" PyNone) "x") as (Hx & _ & _).
  destruct (inherited_raw_read_lookup unaliased_item "y") as (_ & Hy & _).
  split; [apply Ha; left; reflexivity|].
  split; [apply Hx; right; split; reflexivity|].
  apply Hy; reflexivity.
Defined.

(** * Chains of aliases *)

Section AliasChains.
Context {D : Type} `{ItemClass D}.
Implicit Types (it : Item D) (a b c : string).

(** X12: an alias is resolved once and chains are not followed.  When
    the table maps [a] to [b] and [b] to another name [c], the lookup of
    [a] reads [b] from the data and stores it under [b], while the lookup
    of [b] reads [c]: after the lookup of [a] there is still no entry for
    [c], and a lookup of [b] makes a second raw read. *)
Theorem alias_is_resolved_once it a b c :
  _properties_aliases it !! a = Some b →
  _properties_aliases it !! b = Some c →
  b ≠ c →
  forced_values (properties it) !! a = None →
  forced_values (properties it) !! b = None →
  cache (properties it) !! b = None →
  cache (properties it) !! c = None →
  raw_reads (__getitem__ it a).2 = (raw_reads it ++ [b])%list ∧
  is_Some (cache (properties (__getitem__ it a).2) !! b) ∧
  cache (properties (__getitem__ it a).2) !! c = None ∧
  raw_reads (__getitem__ (__getitem__ it a).2 b).2
    = (raw_reads it ++ [b; c])%list.
Proof.
  intros Hab Hbc Hne Hfa Hfb Hcb Hcc.
  assert (Ha : _alias it a = b) by (unfold _alias, dict_get; by rewrite Hab).
  assert (Hb : _alias it b = c) by (unfold _alias, dict_get; by rewrite Hbc).
  destruct (getitem_cases it a) as [(v & _ & [Hf|[_ Hc]])|(_ & _ & Hmiss)];
    [congruence | rewrite Ha in Hc; congruence |].
  rewrite Ha in Hmiss. rewrite Hmiss. simpl.
  split; [done|]. split; [rewrite lookup_insert_eq; eauto|].
  split; [by rewrite lookup_insert_ne|].
  rewrite getitem_miss; simpl.
  - change (_alias _ b) with (_alias it b). rewrite Hb.
    destruct (raw_read_frame
                (mkItem (_properties_aliases it)
                   (mkProps (forced_values (properties it))
                      (<[b := (_read_property_from_data (data it) b).1]>
                         (cache (properties it))))
                   (_read_property_from_data (data it) b).2
                   (raw_reads it ++ [b])%list) c) as (_ & _ & ->).
    simpl. by rewrite <- app_assoc.
  - done.
  - change (_alias _ b) with (_alias it b). rewrite Hb.
    by rewrite lookup_insert_ne.
Qed.

End AliasChains.

(** On [chained_cork_item] the lookup of ["short"] reads
    ["I am aliased"], for which the data has nothing, and not
    ["I am not aliased"]. *)
Lemma alias_is_resolved_once_witness :
  raw_reads (__getitem__ chained_cork_item "short").2 = ["I am aliased"] ∧
  (__getitem__ chained_cork_item "short").1 = Return PyNone ∧
  (__getitem__ chained_cork_item "I am aliased").1
    = Return (PyStr "I am not aliased") ∧
  raw_reads (__getitem__ (__getitem__ chained_cork_item "short").2
                         "I am aliased").2
    = ["I am aliased"; "I am not aliased"].
Proof.
  destruct (alias_is_resolved_once chained_cork_item
              "short" "I am aliased" "I am not aliased")
    as (Hfirst & _ & _ & Hsecond); try reflexivity.
  { intros Heq. discriminate. }
  split; [exact Hfirst|]. split; [reflexivity|]. split; [reflexivity|].
  exact Hsecond.
Defined.
